(** * validate.py: the pre-flight validator of the extension

    A shallow embedding of [src/utils/validate.py].  The script checks that a
    fixed list of files exists next to it and that [manifest.json] parses as
    JSON, prints a report and exits with status 0 or 1.

    The script is effectful: it prints, it asks the operating system about
    paths, and some of its calls raise.  It is embedded in a small monad that
    threads a [World] (file system, standard output, log of system calls) and
    carries Python exceptions. *)

From Stdlib Require Import String Ascii List ZArith NArith Bool Lia.
From Stdlib Require Import DecimalString.
Import ListNotations.

Open Scope list_scope.
Open Scope string_scope.

(** ** Python values produced by [json.load] *)

Module Py.

(** What [json.load] can return.  A float is kept through the two
    observations the script makes of it: whether it is nonzero (its
    truthiness) and its [repr].  A dict is the list of its items in insertion
    order, keys distinct. *)
#[warnings="-register-all"]
Inductive value : Type :=
| VNone
| VBool (b : bool)
| VInt (z : Z)
| VFloat (nonzero : bool) (repr : string)
| VStr (s : string)
| VList (l : list value)
| VDict (d : list (string * value)).

(** [bool(v)], as used by [if valid and manifest_data]. *)
Definition truthy (v : value) : bool :=
  match v with
  | VNone => false
  | VBool b => b
  | VInt z => negb (Z.eqb z 0)
  | VFloat nz _ => nz
  | VStr s => negb (String.eqb s "")
  | VList l => match l with [] => false | _ => true end
  | VDict d => match d with [] => false | _ => true end
  end.

Definition is_dict (v : value) : bool :=
  match v with VDict _ => true | _ => false end.

(** [type(v).__name__] *)
Definition type_name (v : value) : string :=
  match v with
  | VNone => "NoneType"
  | VBool _ => "bool"
  | VInt _ => "int"
  | VFloat _ _ => "float"
  | VStr _ => "str"
  | VList _ => "list"
  | VDict _ => "dict"
  end.

(** [d.get(key)] on a dict: the value stored under [key], [None] when there
    is none. *)
Fixpoint dict_get (d : list (string * value)) (key : string) : value :=
  match d with
  | [] => VNone
  | (k, v) :: rest => if String.eqb k key then v else dict_get rest key
  end.


Definition dec_of_Z (z : Z) : string := NilZero.string_of_int (Z.to_int z).
Definition dec_of_N (n : N) : string := NilZero.string_of_uint (N.to_uint n).

(** A [str] is kept as its UTF-8 bytes, a lone surrogate (which a JSON
    escape such as "\ud800" puts into a [str]) as the three bytes ED A0..BF
    80..BF that the surrogatepass handler gives it.  Well-formed UTF-8 never
    follows the byte ED with a byte above 9F. *)
Fixpoint has_surrogate (s : string) : bool :=
  match s with
  | String c rest =>
      ((N.eqb (N_of_ascii c) 237 &&
        match rest with
        | String d _ => N.leb 160 (N_of_ascii d) && N.leb (N_of_ascii d) 191
        | "" => false
        end) || has_surrogate rest)%bool
  | "" => false
  end.

(** [str(v)] holds a lone surrogate.  Only a [str] can: the [repr] of
    anything else escapes them. *)
Definition unprintable (v : value) : bool :=
  match v with
  | VStr s => has_surrogate s
  | _ => false
  end.

Section Repr.

(** [repr] of a [str] depends on Unicode character classes; it is a parameter
    of the model. *)
Variable repr_str : string -> string.

Fixpoint repr (v : value) : string :=
  match v with
  | VNone => "None"
  | VBool true => "True"
  | VBool false => "False"
  | VInt z => dec_of_Z z
  | VFloat _ r => r
  | VStr s => repr_str s
  | VList l => "[" ++ String.concat ", " (map repr l) ++ "]"
  | VDict d =>
      "{" ++ String.concat ", " (map (fun kv => repr_str (fst kv) ++ ": " ++ repr (snd kv)) d) ++ "}"
  end.

(** [str(v)], which is what an f-string field [{v}] formats to. *)
Definition str (v : value) : string :=
  match v with
  | VStr s => s
  | _ => repr v
  end.

End Repr.

End Py.

Import Py.

(** ** Exceptions *)

Inductive exn : Type :=
| JSONDecodeError (msg : string)
| OtherException (msg : string)   (* OSError, UnicodeDecodeError, ... *)
| AttributeError (msg : string)
| UnicodeEncodeError (object : string)   (* the text that could not be encoded *)
| SystemExit (code : Z).

(** [str(e)].  The message of a UnicodeEncodeError also names the codec, the
    character and its position, which are not kept; it ends as below. *)
Definition exn_str (e : exn) : string :=
  match e with
  | JSONDecodeError m | OtherException m | AttributeError m => m
  | UnicodeEncodeError _ => "surrogates not allowed"
  | SystemExit c => dec_of_Z c
  end.

(** ** The file system and the process *)

(** What opening a file for reading as UTF-8 and handing it to [json.load]
    does, which is all the script ever does with a file's bytes. *)
Inductive payload : Type :=
| Unreadable (msg : string)   (* [open] raises: permission denied, a directory, ... *)
| Undecodable (msg : string)  (* the bytes are not JSON text and reading them raises
                                 something other than JSONDecodeError: bytes that are
                                 not UTF-8 (UnicodeDecodeError), nesting beyond the
                                 recursion limit (RecursionError) *)
| Malformed (msg : string)    (* [json.load] raises JSONDecodeError *)
| Json (v : value).           (* [json.load] returns [v] *)

Record node : Type := Node { node_size : N; node_payload : payload }.

Definition FS : Type := string -> option node.

Inductive syscall : Type :=
| SysStat (path : string)
| SysOpenRead (path : string)
| SysWrite (path : string) (n : node)
| SysUnlink (path : string).

(** The effect of a system call on the file system. *)
Definition sys_step (fs : FS) (c : syscall) : FS :=
  match c with
  | SysStat _ | SysOpenRead _ => fs
  | SysWrite p n => fun q => if String.eqb q p then Some n else fs q
  | SysUnlink p => fun q => if String.eqb q p then None else fs q
  end.

Definition read_only (c : syscall) : bool :=
  match c with
  | SysStat _ | SysOpenRead _ => true
  | _ => false
  end.

Definition syscall_path (c : syscall) : string :=
  match c with
  | SysStat p | SysOpenRead p | SysWrite p _ | SysUnlink p => p
  end.

Record World : Type := MkWorld {
  w_fs : FS;
  w_script_dir : string;        (* os.path.dirname(os.path.abspath(__file__)) *)
  w_argv : list string;         (* sys.argv *)
  w_stdout : list string;       (* one entry per [print] call *)
  w_trace : list syscall
}.

(** ** The monad *)

Inductive result (A : Type) : Type :=
| Ok (a : A)
| Raise (e : exn).
Arguments Ok {A} a.
Arguments Raise {A} e.

Definition M (A : Type) : Type := World -> result A * World.

Definition ret {A} (a : A) : M A := fun w => (Ok a, w).

Definition bind {A B} (m : M A) (k : A -> M B) : M B :=
  fun w => match m w with
           | (Ok a, w') => k a w'
           | (Raise e, w') => (Raise e, w')
           end.

Definition raise {A} (e : exn) : M A := fun w => (Raise e, w).

(** [try: body except ...]; the handler answers [None] for an exception no
    clause matches. *)
Definition try_except {A} (body : M A) (handler : exn -> option (M A)) : M A :=
  fun w => match body w with
           | (Ok a, w') => (Ok a, w')
           | (Raise e, w') =>
               match handler e with
               | Some h => h w'
               | None => (Raise e, w')
               end
           end.

Declare Scope py_scope.
Delimit Scope py_scope with py.
Notation "x <- m ;; k" := (bind m (fun x => k))
  (at level 61, m at next level, right associativity) : py_scope.
Notation "m ;; k" := (bind m (fun _ => k))
  (at level 61, right associativity) : py_scope.
Open Scope py_scope.

(** ** Primitives *)

Definition do_syscall (c : syscall) : M unit :=
  fun w => (Ok tt, MkWorld (sys_step (w_fs w) c) (w_script_dir w) (w_argv w)
                           (w_stdout w) (w_trace w ++ [c])%list).

(** Text handed to [print]: what it shows, and whether the encoder of stdout
    accepts it.  stdout is taken to encode as UTF-8, which refuses a lone
    surrogate and nothing else. *)
Record text : Type := Text { shown : string; encodable : bool }.

(** Literal text, descriptions, paths and exception messages: taken to hold
    no lone surrogate. *)
Definition plain (s : string) : text := Text s true.

(** [print(t)]: the text is encoded as a whole before anything is written,
    so a refused text raises UnicodeEncodeError and leaves stdout as it was.
    [w_stdout] gets one entry per call; a text that holds line feeds is
    several lines of stdout (see [stdout_lines]). *)
Definition print (t : text) : M unit :=
  fun w =>
    if encodable t then
      (Ok tt, MkWorld (w_fs w) (w_script_dir w) (w_argv w)
                      (w_stdout w ++ [shown t])%list (w_trace w))
    else (Raise (UnicodeEncodeError (shown t)), w).

Definition get_fs : M FS := fun w => (Ok (w_fs w), w).

Definition script_dir : M string := fun w => (Ok (w_script_dir w), w).

Definition os_path_exists (path : string) : M bool :=
  do_syscall (SysStat path);;
  fs <- get_fs;;
  ret (match fs path with Some _ => true | None => false end).

Section Program.

Variable repr_str : string -> string.

Definition errno2 (path : string) : string :=
  "[Errno 2] No such file or directory: " ++ repr_str path.

Definition os_path_getsize (path : string) : M N :=
  do_syscall (SysStat path);;
  fs <- get_fs;;
  match fs path with
  | Some n => ret (node_size n)
  | None => raise (OtherException (errno2 path))
  end.

(** [with open(path, 'r', encoding='utf-8') as f: json.load(f)] *)
Definition open_json_load (path : string) : M value :=
  do_syscall (SysOpenRead path);;
  fs <- get_fs;;
  match fs path with
  | None => raise (OtherException (errno2 path))
  | Some n =>
      match node_payload n with
      | Unreadable msg => raise (OtherException msg)
      | Undecodable msg => raise (OtherException msg)
      | Malformed msg => raise (JSONDecodeError msg)
      | Json v => ret v
      end
  end.

(** POSIX [os.path.join] of a directory and a relative name. *)
Fixpoint ends_with_slash (s : string) : bool :=
  match s with
  | "" => false
  | String c "" => Ascii.eqb c "/"
  | String _ rest => ends_with_slash rest
  end.

Definition os_path_join (dir name : string) : string :=
  if (String.eqb dir "" || ends_with_slash dir)%bool then dir ++ name
  else dir ++ "/" ++ name.

(** [v.get(key)]: only a dict has the method. *)
Definition py_get (v : value) (key : string) : M value :=
  match v with
  | VDict d => ret (dict_get d key)
  | _ => raise (AttributeError
                  ("'" ++ type_name v ++ "' object has no attribute 'get'"))
  end.

(** ** The script *)

Definition ok_line (description filepath : string) (size : N) : string :=
  "[OK] " ++ description ++ ": " ++ filepath ++ " (" ++ dec_of_N size ++ " bytes)".

Definition missing_line (description filepath : string) : string :=
  "[FAIL] " ++ description ++ ": " ++ filepath ++ " - MISSING!".

Definition check_file_exists (filepath description : string) : M bool :=
  e <- os_path_exists filepath;;
  if e then
    size <- os_path_getsize filepath;;
    print (plain (ok_line description filepath size));;
    ret true
  else
    print (plain (missing_line description filepath));;
    ret false.

Definition valid_json_line (filepath : string) : string :=
  "[OK] Valid JSON: " ++ filepath.

Definition invalid_json_line (filepath msg : string) : string :=
  "[FAIL] Invalid JSON in " ++ filepath ++ ": " ++ msg.

Definition error_reading_line (filepath msg : string) : string :=
  "[FAIL] Error reading " ++ filepath ++ ": " ++ msg.

Definition validate_json (filepath : string) : M (bool * value) :=
  try_except
    (data <- open_json_load filepath;;
     print (plain (valid_json_line filepath));;
     ret (true, data))
    (fun e =>
       match e with
       | JSONDecodeError _ =>
           Some (print (plain (invalid_json_line filepath (exn_str e)));;
                 ret (false, VNone))
       | SystemExit _ => None
       | _ =>
           Some (print (plain (error_reading_line filepath (exn_str e)));;
                 ret (false, VNone))
       end).

Fixpoint repeat_string (s : string) (n : nat) : string :=
  match n with
  | O => ""
  | S n' => s ++ repeat_string s n'
  end.

Definition rule : string := Eval cbv in repeat_string "=" 60.

Definition html_files : list (string * string) :=
  [ ("sidepanel.html", "Side Panel") ].

Definition css_files : list (string * string) :=
  [ ("styles/variables.css", "Design tokens");
    ("styles/components.css", "UI components");
    ("styles/animations.css", "Animations");
    ("styles/sidepanel.css", "Side Panel styles") ].

Definition js_files : list (string * string) :=
  [ ("scripts/sidepanel.js", "Side Panel logic");
    ("scripts/modal-manager.js", "Modal manager");
    ("scripts/tab-manager.js", "Tab manager");
    ("scripts/storage-manager.js", "Storage manager");
    ("scripts/background.js", "Background worker");
    ("scripts/content-intent-capture.js", "Content script") ].

Definition icon_files : list (string * string) :=
  [ ("assets/icons/icon16.png", "16x16 icon");
    ("assets/icons/icon48.png", "48x48 icon");
    ("assets/icons/icon192.png", "128x128 icon") ].

(** [for filename, desc in files: all_valid = all_valid and
    check_file_exists(os.path.join(base_dir, filename), desc)].  Python's
    [and] does not evaluate its right operand when the left one is false. *)
Fixpoint check_files (base_dir : string) (files : list (string * string))
    (all_valid : bool) : M bool :=
  match files with
  | [] => ret all_valid
  | (filename, desc) :: rest =>
      let filepath := os_path_join base_dir filename in
      all_valid' <- (if all_valid then check_file_exists filepath desc
                     else ret false);;
      check_files base_dir rest all_valid'
  end.

(** An f-string made of literal text and one formatted value,
    [f"<label>{v}"]: stdout refuses it when [str(v)] holds a lone
    surrogate. *)
Definition fstring (label : string) (v : value) : text :=
  Text (label ++ str repr_str v) (negb (unprintable v)).

Definition success_line : string := "[SUCCESS] ALL CHECKS PASSED!".
Definition error_line : string := "[ERROR] SOME CHECKS FAILED!".

Definition main : M Z :=
  print (plain rule);;
  print (plain "TAB MEMORY ASSISTANT - VALIDATION CHECK");;
  print (plain rule);;
  print (plain "");;
  base_dir <- script_dir;;
  let all_valid := true in
  print (plain "1. Checking manifest.json...");;
  let manifest_path := os_path_join base_dir "manifest.json" in
  r <- validate_json manifest_path;;
  let valid := fst r in
  let manifest_data := snd r in
  let all_valid := (all_valid && valid)%bool in
  (if (valid && truthy manifest_data)%bool then
     name <- py_get manifest_data "name";;
     print (fstring "   Name: " name);;
     version <- py_get manifest_data "version";;
     print (fstring "   Version: " version);;
     mv <- py_get manifest_data "manifest_version";;
     print (fstring "   Manifest Version: " mv)
   else ret tt);;
  print (plain "");;
  print (plain "2. Checking HTML files...");;
  all_valid <- check_files base_dir html_files all_valid;;
  print (plain "");;
  print (plain "3. Checking CSS files...");;
  all_valid <- check_files base_dir css_files all_valid;;
  print (plain "");;
  print (plain "4. Checking JavaScript files...");;
  all_valid <- check_files base_dir js_files all_valid;;
  print (plain "");;
  print (plain "5. Checking icon files...");;
  all_valid <- check_files base_dir icon_files all_valid;;
  print (plain "");;
  print (plain rule);;
  if all_valid then
    print (plain success_line);;
    print (plain "");;
    print (plain "Your extension is ready to load in Chrome!");;
    print (plain "");;
    print (plain "Next steps:");;
    print (plain "1. Open chrome://extensions/ in Chrome");;
    print (plain "2. Enable 'Developer mode'");;
    print (plain "3. Click 'Load unpacked'");;
    print (plain ("4. Select this folder:" ++ " " ++ base_dir));;
    print (plain rule);;
    ret 0%Z
  else
    print (plain error_line);;
    print (plain "");;
    print (plain "Please fix the issues above before loading the extension.");;
    print (plain rule);;
    ret 1%Z.

(** [if __name__ == "__main__": sys.exit(main())] *)
Definition script : M unit :=
  code <- main;;
  raise (SystemExit code).

(** How the interpreter ends: [SystemExit] sets the exit status, any other
    uncaught exception prints a traceback. *)
Inductive termination : Type :=
| ExitStatus (code : Z)
| Traceback (e : exn).

Definition terminate (r : result unit) : termination :=
  match r with
  | Ok _ => ExitStatus 0
  | Raise (SystemExit c) => ExitStatus c
  | Raise e => Traceback e
  end.

Definition boot (fs : FS) (dir : string) (argv : list string) : World :=
  MkWorld fs dir argv [] [].

(** Running the script as a process: its termination, what it printed, the
    file system it leaves and the system calls it made. *)
Definition run_process (fs : FS) (dir : string) (argv : list string)
  : termination * World :=
  let '(r, w) := script (boot fs dir argv) in (terminate r, w).

End Program.

(** ** Text helpers used to state what the output contains *)

Fixpoint is_substring (needle hay : string) : bool :=
  (String.prefix needle hay ||
   match hay with
   | "" => false
   | String _ rest => is_substring needle rest
   end)%bool.

Definition LF : ascii := "010"%char.

(** The text holds no line feed. *)
Fixpoint single_line (s : string) : bool :=
  match s with
  | "" => true
  | String c rest => (negb (Ascii.eqb c LF) && single_line rest)%bool
  end.

(** The lines a printed text makes on stdout. *)
Fixpoint lines_of (s : string) : list string :=
  match s with
  | "" => [""]
  | String c rest =>
      if Ascii.eqb c LF then "" :: lines_of rest
      else match lines_of rest with
           | [] => [String c ""]
           | l :: ls => String c l :: ls
           end
  end.

(** The lines of stdout after the given [print] calls, each of which writes
    its text and a line feed. *)
Definition stdout_lines (out : list string) : list string :=
  flat_map lines_of out.

(** Some line of the output contains [needle]. *)
Definition mentions (needle : string) (out : list string) : bool :=
  existsb (is_substring needle) out.

(** ** The expected files *)

Definition manifest_name : string := "manifest.json".

(** The files the four loops go through, in the order of the checks. *)
Definition all_files : list (string * string) :=
  (html_files ++ css_files ++ js_files ++ icon_files)%list.

Definition expected_paths : list string := manifest_name :: map fst all_files.

(** ** Closed form of a run

    What [main] returns, prints and asks of the system, written as functions
    of the file system; [main_run] below proves them equal to the run. *)

Section ClosedForm.

Variable repr_str : string -> string.
Variable fs : FS.
Variable dir : string.

Definition path_of (fd : string * string) : string := os_path_join dir (fst fd).

Definition present (fd : string * string) : bool :=
  match fs (path_of fd) with Some _ => true | None => false end.

Definition report_line (fd : string * string) : string :=
  match fs (path_of fd) with
  | Some n => ok_line (snd fd) (path_of fd) (node_size n)
  | None => missing_line (snd fd) (path_of fd)
  end.

(** The files a loop reaches when it starts with [all_valid] true: those up
    to and including the first absent one. *)
Fixpoint reported (files : list (string * string)) : list (string * string) :=
  match files with
  | [] => []
  | fd :: rest => if present fd then fd :: reported rest else [fd]
  end.

Definition check_calls (fd : string * string) : list syscall :=
  if present fd then [SysStat (path_of fd); SysStat (path_of fd)]
  else [SysStat (path_of fd)].

Definition manifest_path : string := os_path_join dir manifest_name.

(** What [validate_json] makes of the manifest. *)
Inductive manifest_verdict : Type :=
| Rejected (line : string)
| Accepted (v : value).

Definition json_verdict (path : string) : manifest_verdict :=
  match fs path with
  | None => Rejected (error_reading_line path (errno2 repr_str path))
  | Some n =>
      match node_payload n with
      | Unreadable msg => Rejected (error_reading_line path msg)
      | Undecodable msg => Rejected (error_reading_line path msg)
      | Malformed msg => Rejected (invalid_json_line path msg)
      | Json v => Accepted v
      end
  end.

Definition manifest_check : manifest_verdict := json_verdict manifest_path.

Definition no_get (v : value) : exn :=
  AttributeError ("'" ++ type_name v ++ "' object has no attribute 'get'").

(** The three values [main] looks up for display, with their labels. *)
Definition shown_fields (d : list (string * value)) : list (string * value) :=
  [ ("   Name: ", dict_get d "name");
    ("   Version: ", dict_get d "version");
    ("   Manifest Version: ", dict_get d "manifest_version") ].

(** The field lines printed before the first one that stdout refuses. *)
Fixpoint printed_fields (l : list (string * value)) : list string :=
  match l with
  | [] => []
  | (label, v) :: rest =>
      if unprintable v then [] else (label ++ str repr_str v) :: printed_fields rest
  end.

(** The first field line that stdout refuses. *)
Fixpoint refused_field (l : list (string * value)) : option string :=
  match l with
  | [] => None
  | (label, v) :: rest =>
      if unprintable v then Some (label ++ str repr_str v) else refused_field rest
  end.

(** One of the three displayed values cannot be printed. *)
Definition refuses_fields (d : list (string * value)) : bool :=
  existsb (fun lv => unprintable (snd lv)) (shown_fields d).

(** The manifest values on which [main] aborts: a truthy value that is not
    an object, on which [manifest_data.get] is called although there is no
    such method, and a non-empty object one of whose displayed values stdout
    refuses. *)
Definition aborts (v : value) : bool :=
  (truthy v && match v with VDict d => refuses_fields d | _ => true end)%bool.

(** The exception [main] aborts with. *)
Definition abort_error (v : value) : exn :=
  match v with
  | VDict d =>
      match refused_field (shown_fields d) with
      | Some line => UnicodeEncodeError line
      | None => no_get v
      end
  | _ => no_get v
  end.

Definition banner : list string :=
  [ rule; "TAB MEMORY ASSISTANT - VALIDATION CHECK"; rule; "";
    "1. Checking manifest.json..." ].

Definition field_lines (d : list (string * value)) : list string :=
  [ "   Name: " ++ str repr_str (dict_get d "name");
    "   Version: " ++ str repr_str (dict_get d "version");
    "   Manifest Version: " ++ str repr_str (dict_get d "manifest_version") ].

Definition section_reports (files : list (string * string)) (flag : bool)
  : list string :=
  if flag then map report_line (reported files) else [].

Definition section_calls (files : list (string * string)) (flag : bool)
  : list syscall :=
  if flag then flat_map check_calls (reported files) else [].

Definition flag_after (files : list (string * string)) (flag : bool) : bool :=
  (flag && forallb present files)%bool.


(** Everything printed from the blank line after the manifest section to the
    rule that opens the summary. *)
Definition body_lines (flag : bool) : list string :=
  let f1 := flag_after html_files flag in
  let f2 := flag_after css_files f1 in
  let f3 := flag_after js_files f2 in
  ([ ""; "2. Checking HTML files..." ] ++ section_reports html_files flag ++
   [ ""; "3. Checking CSS files..." ] ++ section_reports css_files f1 ++
   [ ""; "4. Checking JavaScript files..." ] ++ section_reports js_files f2 ++
   [ ""; "5. Checking icon files..." ] ++ section_reports icon_files f3 ++
   [ ""; rule ])%list.

(** The lines of [body_lines] that do not depend on the files. *)
Definition body_frame : list string :=
  [ ""; "2. Checking HTML files..."; ""; "3. Checking CSS files...";
    ""; "4. Checking JavaScript files..."; ""; "5. Checking icon files...";
    ""; rule ].

Definition body_calls (flag : bool) : list syscall :=
  let f1 := flag_after html_files flag in
  let f2 := flag_after css_files f1 in
  let f3 := flag_after js_files f2 in
  (section_calls html_files flag ++ section_calls css_files f1 ++
   section_calls js_files f2 ++ section_calls icon_files f3)%list.

Definition summary_lines (all_valid : bool) : list string :=
  if all_valid then
    [ success_line; ""; "Your extension is ready to load in Chrome!"; "";
      "Next steps:"; "1. Open chrome://extensions/ in Chrome";
      "2. Enable 'Developer mode'"; "3. Click 'Load unpacked'";
      "4. Select this folder: " ++ dir; rule ]
  else
    [ error_line; "";
      "Please fix the issues above before loading the extension."; rule ].

Definition exit_code (all_valid : bool) : Z := if all_valid then 0%Z else 1%Z.

Definition expected_result : result Z :=
  match manifest_check with
  | Rejected _ => Ok 1%Z
  | Accepted v =>
      if aborts v then Raise (abort_error v)
      else Ok (exit_code (flag_after all_files true))
  end.

Definition manifest_lines : list string :=
  match manifest_check with
  | Rejected line => [line]
  | Accepted v =>
      valid_json_line manifest_path ::
      (if truthy v then
         match v with VDict d => printed_fields (shown_fields d) | _ => [] end
       else [])
  end.

Definition expected_output : list string :=
  (banner ++ manifest_lines ++
   match manifest_check with
   | Rejected _ => body_lines false ++ summary_lines false
   | Accepted v =>
       if aborts v then []
       else body_lines true ++ summary_lines (flag_after all_files true)
   end)%list.

Definition expected_trace : list syscall :=
  (SysOpenRead manifest_path ::
   match manifest_check with
   | Rejected _ => []
   | Accepted v => if aborts v then [] else body_calls true
   end)%list.

End ClosedForm.

(** ** Observations of a run *)

Section Observations.

Variable repr_str : string -> string.

Definition main_result (fs : FS) (dir : string) (argv : list string) : result Z :=
  fst (main repr_str (boot fs dir argv)).

Definition main_output (fs : FS) (dir : string) (argv : list string) : list string :=
  w_stdout (snd (main repr_str (boot fs dir argv))).

Definition main_trace (fs : FS) (dir : string) (argv : list string) : list syscall :=
  w_trace (snd (main repr_str (boot fs dir argv))).

Definition main_fs_after (fs : FS) (dir : string) (argv : list string) : FS :=
  w_fs (snd (main repr_str (boot fs dir argv))).

End Observations.



(** How many lines of the output open with [start]. *)
Definition count_opening (start : string) (out : list string) : nat :=
  List.length (filter (String.prefix start) out).




(** [validate_json] returns [True]: the manifest is there, readable and
    parses as JSON. *)
Definition manifest_valid (fs : FS) (dir : string) : bool :=
  match fs (os_path_join dir manifest_name) with
  | Some n => match node_payload n with Json _ => true | _ => false end
  | None => false
  end.

(** The manifest parses to a value on which [main] aborts. *)
Definition manifest_aborts (fs : FS) (dir : string) : bool :=
  match fs (os_path_join dir manifest_name) with
  | Some n => match node_payload n with Json v => aborts v | _ => false end
  | None => false
  end.



(** ** Sample file systems *)

Module Sample.

(** [repr] of a string of printable ASCII characters without quotes or
    backslashes. *)
Definition ascii_repr (s : string) : string := "'" ++ s ++ "'".

Definition dir : string := "/ext".

Definition plain_file : node :=
  Node 2048 (Malformed "Expecting value: line 1 column 1 (char 0)").

Definition manifest_file (content : payload) : node := Node 120 content.

(** The extension directory with every expected file except those named in
    [missing]; [manifest] is what manifest.json holds, [None] when it is not
    there. *)
Definition tree (manifest : option payload) (missing : list string) : FS :=
  fun p =>
    if String.eqb p (os_path_join dir manifest_name) then
      option_map manifest_file manifest
    else if existsb
              (fun f => (String.eqb p (os_path_join dir f) &&
                         negb (existsb (String.eqb f) missing))%bool)
              (map fst all_files)
    then Some plain_file
    else None.

(** {"name": "Tab Story", "version": "1.0", "manifest_version": 3} *)
Definition object_value : value :=
  VDict [ ("name", VStr "Tab Story"); ("version", VStr "1.0");
          ("manifest_version", VInt 3) ].





(** Everything in place, a well-formed manifest. *)
Definition complete : FS := tree (Some (Json object_value)) [].

(** As [complete], without styles/components.css. *)
Definition no_components : FS :=
  tree (Some (Json object_value)) ["styles/components.css"].

(** As [complete], without sidepanel.html. *)
Definition no_sidepanel : FS :=
  tree (Some (Json object_value)) ["sidepanel.html"].













(** [complete] after every file was rewritten: other sizes everywhere, other
    contents in the fourteen checked files, the same manifest text. *)
Definition rewritten : FS :=
  fun p =>
    if String.eqb p (os_path_join dir manifest_name) then
      option_map (fun n => Node 7 (node_payload n)) (complete p)
    else option_map (fun _ => Node 1 (Unreadable "binary")) (complete p).

(** {"name": null, "version": "1.0"} *)
Definition null_name_fields : list (string * value) :=
  [ ("name", VNone); ("version", VStr "1.0") ].

Definition null_name_manifest : FS := tree (Some (Json (VDict null_name_fields))) [].

End Sample.

Ltac splits := repeat match goal with |- _ /\ _ => split end.

(** ** Lemmas on the loops *)

Section Run.

Variable repr_str : string -> string.

Lemma check_files_run (dir : string) (files : list (string * string)) :
  forall (flag : bool) (w : World),
    check_files repr_str dir files flag w =
    (Ok (flag_after (w_fs w) dir files flag),
     MkWorld (w_fs w) (w_script_dir w) (w_argv w)
       (w_stdout w ++ section_reports (w_fs w) dir files flag)
       (w_trace w ++ section_calls (w_fs w) dir files flag)).
Proof.
  induction files as [|[filename desc] rest IH]; intros flag w.
  - unfold flag_after, section_reports, section_calls; simpl.
    rewrite andb_true_r. destruct flag; simpl; rewrite !app_nil_r;
      destruct w; reflexivity.
  - destruct flag.
    + cbn [check_files]. unfold bind at 1.
      unfold check_file_exists, os_path_exists, os_path_getsize, bind,
        do_syscall, get_fs, ret, print, plain, raise.
      cbn [w_fs w_script_dir w_argv w_stdout w_trace sys_step encodable shown].
      unfold flag_after, section_reports, section_calls.
      cbn [reported forallb map flat_map andb].
      unfold present, report_line, check_calls, present, path_of. cbn [fst snd].
      destruct (w_fs w (os_path_join dir filename)) as [n|] eqn:E.
      * cbn [w_fs w_script_dir w_argv w_stdout w_trace]. rewrite E.
        cbn [w_fs w_script_dir w_argv w_stdout w_trace encodable shown].
        rewrite IH.
        cbn [w_fs w_script_dir w_argv w_stdout w_trace].
        unfold flag_after, section_reports, section_calls.
        cbn [andb map flat_map]. unfold report_line, path_of. cbn [fst snd].
        rewrite E. rewrite <- !app_assoc. reflexivity.
      * cbn [w_fs w_script_dir w_argv w_stdout w_trace encodable shown].
        rewrite IH.
        cbn [w_fs w_script_dir w_argv w_stdout w_trace].
        unfold flag_after, section_reports, section_calls.
        cbn [andb map flat_map app]. unfold report_line, path_of. cbn [fst snd].
        rewrite E. rewrite !app_nil_r. reflexivity.
    + cbn [check_files]. unfold bind at 1. unfold ret at 1.
      rewrite IH.
      unfold flag_after, section_reports, section_calls. cbn [andb].
      reflexivity.
Qed.

Lemma flag_after_app (fs : FS) (dir : string) (l1 l2 : list (string * string))
    (flag : bool) :
  flag_after fs dir (l1 ++ l2) flag = flag_after fs dir l2 (flag_after fs dir l1 flag).
Proof.
  unfold flag_after. rewrite forallb_app. now rewrite andb_assoc.
Qed.

Lemma flag_after_all (fs : FS) (dir : string) (flag : bool) :
  flag_after fs dir all_files flag =
  flag_after fs dir icon_files
    (flag_after fs dir js_files
       (flag_after fs dir css_files (flag_after fs dir html_files flag))).
Proof.
  unfold all_files. now rewrite !flag_after_app.
Qed.

(** One step of a run. *)
Lemma bind_print {B : Type} (line : string) (k : unit -> M B) (w : World) :
  bind (print (plain line)) k w =
  k tt (MkWorld (w_fs w) (w_script_dir w) (w_argv w)
          (w_stdout w ++ [line]) (w_trace w)).
Proof. reflexivity. Qed.

Lemma bind_print_fstring {B : Type} (label : string) (v : value)
    (k : unit -> M B) (w : World) :
  bind (print (fstring repr_str label v)) k w =
  if unprintable v then
    (Raise (UnicodeEncodeError (label ++ str repr_str v)), w)
  else
    k tt (MkWorld (w_fs w) (w_script_dir w) (w_argv w)
            (w_stdout w ++ [label ++ str repr_str v]) (w_trace w)).
Proof.
  unfold bind, print, fstring. cbn [encodable shown].
  now destruct (unprintable v).
Qed.

Lemma bind_script_dir {B : Type} (k : string -> M B) (w : World) :
  bind script_dir k w = k (w_script_dir w) w.
Proof. reflexivity. Qed.

Lemma bind_ret {A B : Type} (a : A) (k : A -> M B) (w : World) :
  bind (ret a) k w = k a w.
Proof. reflexivity. Qed.

Lemma bind_raise {A B : Type} (e : exn) (k : A -> M B) (w : World) :
  bind (raise e) k w = (Raise e, w).
Proof. reflexivity. Qed.

Lemma bind_assoc {A B C : Type} (m : M A) (f : A -> M B) (k : B -> M C)
    (w : World) :
  bind (bind m f) k w = bind m (fun a => bind (f a) k) w.
Proof. unfold bind. now destruct (m w) as [[a|e] w']. Qed.

Lemma bind_check_files {B : Type} (dir : string)
    (files : list (string * string)) (flag : bool) (k : bool -> M B)
    (w : World) :
  bind (check_files repr_str dir files flag) k w =
  k (flag_after (w_fs w) dir files flag)
    (MkWorld (w_fs w) (w_script_dir w) (w_argv w)
       (w_stdout w ++ section_reports (w_fs w) dir files flag)
       (w_trace w ++ section_calls (w_fs w) dir files flag)).
Proof. unfold bind at 1. now rewrite check_files_run. Qed.

Lemma validate_json_run (path : string) (w : World) :
  validate_json repr_str path w =
  (Ok (match json_verdict repr_str (w_fs w) path with
       | Rejected _ => (false, VNone)
       | Accepted v => (true, v)
       end),
   MkWorld (w_fs w) (w_script_dir w) (w_argv w)
     (w_stdout w ++ [match json_verdict repr_str (w_fs w) path with
                     | Rejected line => line
                     | Accepted _ => valid_json_line path
                     end])
     (w_trace w ++ [SysOpenRead path])).
Proof.
  unfold validate_json, try_except, open_json_load, bind, do_syscall, get_fs,
    json_verdict.
  cbn [w_fs w_script_dir w_argv w_stdout w_trace sys_step].
  destruct (w_fs w path) as [[sz pl]|]; [destruct pl|]; reflexivity.
Qed.

Lemma bind_validate_json {B : Type} (path : string)
    (k : bool * value -> M B) (w : World) :
  bind (validate_json repr_str path) k w =
  k (match json_verdict repr_str (w_fs w) path with
     | Rejected _ => (false, VNone)
     | Accepted v => (true, v)
     end)
    (MkWorld (w_fs w) (w_script_dir w) (w_argv w)
       (w_stdout w ++ [match json_verdict repr_str (w_fs w) path with
                       | Rejected line => line
                       | Accepted _ => valid_json_line path
                       end])
       (w_trace w ++ [SysOpenRead path])).
Proof. unfold bind at 1. now rewrite validate_json_run. Qed.

Ltac step_world :=
  cbn [w_fs w_script_dir w_argv w_stdout w_trace fst snd andb sys_step].

Ltac step :=
  first [ rewrite bind_print | rewrite bind_script_dir | rewrite bind_ret
        | rewrite bind_check_files | rewrite bind_validate_json
        | rewrite bind_assoc ];
  cbv beta zeta; step_world.

Ltac close_run :=
  unfold ret, body_lines, body_calls, summary_lines, banner, field_lines,
    exit_code;
  cbn [flag_after andb section_reports section_calls exn_str];
  rewrite <- ?app_assoc; cbn [app]; rewrite ?app_nil_r; reflexivity.

(** The field lines of a non-empty object, up to the first refused one. *)
Ltac print_field E :=
  repeat step; rewrite bind_print_fstring;
  match goal with
  | |- context [unprintable ?v] => destruct (unprintable v) eqn:E
  end;
  cbn [orb existsb snd printed_fields refused_field];
  rewrite ?E; cbn [orb existsb snd printed_fields refused_field];
  step_world.

Lemma main_run (fs : FS) (dir : string) (argv : list string) :
  main repr_str (boot fs dir argv) =
  (expected_result repr_str fs dir,
   MkWorld fs dir argv (expected_output repr_str fs dir)
     (expected_trace repr_str fs dir)).
Proof.
  unfold main, boot, expected_result, expected_output, expected_trace,
    manifest_lines, manifest_check, manifest_path, manifest_name.
  do 7 step.
  destruct (json_verdict repr_str fs (os_path_join dir "manifest.json"))
    as [line|v]; step_world.
  - repeat step. cbn [flag_after andb]. cbv iota. repeat step. close_run.
  - unfold aborts. destruct (truthy v) eqn:Ht; step_world.
    + destruct v; cbn [py_get is_dict negb abort_error]; step_world;
        try (rewrite bind_assoc, bind_raise; now rewrite app_nil_r).
      unfold refuses_fields, shown_fields. cbn [py_get].
      print_field E1; [close_run|].
      print_field E2; [close_run|].
      print_field E3; [close_run|].
      repeat step. rewrite flag_after_all.
      destruct (flag_after fs dir icon_files _); repeat step; close_run.
    + repeat step. rewrite flag_after_all.
      destruct (flag_after fs dir icon_files _); repeat step; close_run.
Qed.

Lemma main_result_eq (fs : FS) (dir : string) (argv : list string) :
  main_result repr_str fs dir argv = expected_result repr_str fs dir.
Proof. unfold main_result. now rewrite main_run. Qed.

Lemma main_output_eq (fs : FS) (dir : string) (argv : list string) :
  main_output repr_str fs dir argv = expected_output repr_str fs dir.
Proof. unfold main_output. now rewrite main_run. Qed.

Lemma main_trace_eq (fs : FS) (dir : string) (argv : list string) :
  main_trace repr_str fs dir argv = expected_trace repr_str fs dir.
Proof. unfold main_trace. now rewrite main_run. Qed.

Lemma main_fs_after_eq (fs : FS) (dir : string) (argv : list string) :
  main_fs_after repr_str fs dir argv = fs.
Proof. unfold main_fs_after. now rewrite main_run. Qed.

Lemma run_process_eq (fs : FS) (dir : string) (argv : list string) :
  run_process repr_str fs dir argv =
  (match expected_result repr_str fs dir with
   | Ok code => ExitStatus code
   | Raise e => terminate (Raise e)
   end,
   MkWorld fs dir argv (expected_output repr_str fs dir)
     (expected_trace repr_str fs dir)).
Proof.
  unfold run_process, script, bind. rewrite main_run.
  destruct (expected_result repr_str fs dir); reflexivity.
Qed.

End Run.

(** ** Lemmas on strings and lists *)



Lemma prefix_app (s t : string) : String.prefix s (s ++ t) = true.
Proof.
  induction s as [|x s IH]; simpl; [now destruct t|].
  destruct (ascii_dec x x) as [_|N]; [exact IH | now elim N].
Qed.






Lemma not_In_eqb (x : string) (l : list string) :
  existsb (String.eqb x) l = false -> ~ In x l.
Proof.
  intros H Hin. assert (existsb (String.eqb x) l = true) as E.
  { apply existsb_exists. exists x. split; [exact Hin | apply String.eqb_refl]. }
  congruence.
Qed.



Lemma fold_read_only (fs : FS) (trace : list syscall) :
  Forall (fun c => read_only c = true) trace ->
  fold_left sys_step trace fs = fs.
Proof.
  induction 1 as [|c rest Hc _ IH]; simpl; [reflexivity|].
  destruct c; try discriminate; exact IH.
Qed.











(** ** Lemmas on the closed form *)

Section Facts.

Variable repr_str : string -> string.
Variable fs : FS.
Variable dir : string.



Lemma reported_incl (files : list (string * string)) (g : string * string) :
  In g (reported fs dir files) -> In g files.
Proof.
  induction files as [|fd rest IH]; simpl; [tauto|].
  destruct (present fs dir fd); simpl; intuition.
Qed.

Lemma reported_app (l1 l2 : list (string * string)) :
  reported fs dir (l1 ++ l2) =
  if forallb (present fs dir) l1 then (l1 ++ reported fs dir l2)%list
  else reported fs dir l1.
Proof.
  induction l1 as [|fd rest IH]; simpl; [reflexivity|].
  destruct (present fs dir fd); simpl; [|reflexivity].
  rewrite IH. now destruct (forallb (present fs dir) rest).
Qed.

Lemma reported_all_present (files : list (string * string)) :
  forallb (present fs dir) files = true -> reported fs dir files = files.
Proof.
  induction files as [|fd rest IH]; simpl; [reflexivity|].
  destruct (present fs dir fd); simpl; [|discriminate].
  intros H. now rewrite IH.
Qed.

Lemma section_reports_app (l1 l2 : list (string * string)) (flag : bool) :
  section_reports fs dir (l1 ++ l2) flag =
  (section_reports fs dir l1 flag ++
   section_reports fs dir l2 (flag_after fs dir l1 flag))%list.
Proof.
  unfold section_reports, flag_after. destruct flag; simpl; [|reflexivity].
  rewrite reported_app.
  destruct (forallb (present fs dir) l1) eqn:E.
  - rewrite map_app. now rewrite (reported_all_present l1 E).
  - now rewrite app_nil_r.
Qed.

Lemma section_calls_app (l1 l2 : list (string * string)) (flag : bool) :
  section_calls fs dir (l1 ++ l2) flag =
  (section_calls fs dir l1 flag ++
   section_calls fs dir l2 (flag_after fs dir l1 flag))%list.
Proof.
  unfold section_calls, flag_after. destruct flag; simpl; [|reflexivity].
  rewrite reported_app.
  destruct (forallb (present fs dir) l1) eqn:E.
  - rewrite flat_map_app. now rewrite (reported_all_present l1 E).
  - now rewrite app_nil_r.
Qed.

Lemma body_calls_flat (flag : bool) :
  body_calls fs dir flag = section_calls fs dir all_files flag.
Proof.
  unfold body_calls, all_files. now rewrite !section_calls_app.
Qed.

Lemma body_lines_In (flag : bool) (line : string) :
  In line (body_lines fs dir flag) <->
  In line body_frame \/ In line (section_reports fs dir all_files flag).
Proof.
  unfold body_lines, all_files. rewrite !section_reports_app.
  cbv zeta. unfold body_frame.
  rewrite !in_app_iff. cbn [In]. tauto.
Qed.

Lemma report_In (files : list (string * string)) (line : string) :
  In line (section_reports fs dir files true) ->
  exists g, In g (reported fs dir files) /\ line = report_line fs dir g.
Proof.
  unfold section_reports. intros H. apply in_map_iff in H.
  destruct H as [g [<- Hg]]. now exists g.
Qed.

Lemma call_In (files : list (string * string)) (c : syscall) :
  In c (section_calls fs dir files true) ->
  exists g, In g (reported fs dir files) /\ c = SysStat (path_of dir g).
Proof.
  unfold section_calls. intros H. apply in_flat_map in H.
  destruct H as [g [Hg Hc]]. exists g. split; [exact Hg|].
  unfold check_calls in Hc. destruct (present fs dir g); simpl in Hc;
    intuition.
Qed.






Lemma manifest_check_unreadable (n : node) (msg : string) :
  fs (manifest_path dir) = Some n -> node_payload n = Unreadable msg ->
  manifest_check repr_str fs dir =
  Rejected (error_reading_line (manifest_path dir) msg).
Proof. unfold manifest_check, json_verdict. now intros -> ->. Qed.







Lemma printed_fields_In (d : list (string * value)) (line : string) :
  In line (printed_fields repr_str (shown_fields d)) ->
  In line (field_lines repr_str d).
Proof.
  unfold shown_fields, field_lines. cbn [printed_fields].
  destruct (unprintable (dict_get d "name")); [intros []|].
  destruct (unprintable (dict_get d "version")); [cbn [In]; tauto|].
  destruct (unprintable (dict_get d "manifest_version")); cbn [In]; tauto.
Qed.


(** Every system call of a run reads, and reads an expected path. *)
Lemma trace_calls (c : syscall) :
  In c (expected_trace repr_str fs dir) ->
  c = SysOpenRead (manifest_path dir) \/
  exists g, In g all_files /\ c = SysStat (path_of dir g).
Proof.
  unfold expected_trace. intros [<-|H]; [now left|].
  destruct (manifest_check repr_str fs dir) as [line|v]; [destruct H|].
  destruct (aborts v); [destruct H|].
  rewrite body_calls_flat in H. apply call_In in H.
  destruct H as [g [Hg ->]]. right. exists g. split; [|reflexivity].
  now apply reported_incl in Hg.
Qed.


Lemma accepted_valid (v : value) :
  manifest_check repr_str fs dir = Accepted v ->
  manifest_valid fs dir = true /\ manifest_aborts fs dir = aborts v.
Proof.
  unfold manifest_valid, manifest_aborts, manifest_check, json_verdict,
    manifest_path.
  destruct (fs (os_path_join dir manifest_name)) as [[sz pl]|]; [|discriminate].
  destruct pl; try discriminate. intros H. injection H as ->. now split.
Qed.

Lemma rejected_invalid (line : string) :
  manifest_check repr_str fs dir = Rejected line ->
  manifest_valid fs dir = false /\ manifest_aborts fs dir = false.
Proof.
  unfold manifest_valid, manifest_aborts, manifest_check, json_verdict,
    manifest_path.
  destruct (fs (os_path_join dir manifest_name)) as [[sz pl]|];
    [destruct pl; try discriminate|]; now split.
Qed.








End Facts.

(** ** Further lemmas: counting lines, comparing file systems *)

Lemma count_opening_app (start : string) (l1 l2 : list string) :
  count_opening start (l1 ++ l2) = count_opening start l1 + count_opening start l2.
Proof. unfold count_opening. now rewrite filter_app, length_app. Qed.

Lemma count_opening_two (start a b : string) (l : list string) :
  String.prefix start a = false -> String.prefix start b = false ->
  count_opening start ([a; b] ++ l) = count_opening start l.
Proof. unfold count_opening. cbn [app filter]. now intros -> ->. Qed.

Lemma forallb_agree {A : Type} (f g : A -> bool) (l : list A) :
  (forall x, In x l -> f x = g x) -> forallb f l = forallb g l.
Proof.
  induction l as [|x l IH]; intros H; simpl; [reflexivity|].
  rewrite (H x (or_introl eq_refl)). rewrite IH; [reflexivity|].
  intros y Hy. apply H. now right.
Qed.

Lemma lines_of_single (s : string) :
  single_line s = true -> lines_of s = [s].
Proof.
  induction s as [|c rest IH]; [reflexivity|].
  cbn [single_line lines_of]. intros H. apply andb_true_iff in H.
  destruct H as [Hc Hrest]. apply negb_true_iff in Hc.
  now rewrite Hc, (IH Hrest).
Qed.

Lemma stdout_lines_single (out : list string) :
  forallb single_line out = true -> stdout_lines out = out.
Proof.
  unfold stdout_lines. induction out as [|x out IH]; [reflexivity|].
  cbn [forallb flat_map]. intros H. apply andb_true_iff in H.
  destruct H as [Hx Hout]. now rewrite (lines_of_single x Hx), (IH Hout).
Qed.

(** A printed text without line feed is a line of stdout. *)
Lemma In_stdout_lines (x : string) (out : list string) :
  In x out -> single_line x = true -> In x (stdout_lines out).
Proof.
  intros Hin Hx. unfold stdout_lines. apply in_flat_map. exists x.
  split; [exact Hin|]. rewrite (lines_of_single x Hx). now left.
Qed.


Lemma prefix_empty (s : string) : String.prefix "" s = true.
Proof. now destruct s. Qed.





Section MoreFacts.

Variable repr_str : string -> string.
Variable fs : FS.
Variable dir : string.

Lemma report_line_fail (fd : string * string) :
  String.prefix "[FAIL] " (report_line fs dir fd) = negb (present fs dir fd).
Proof.
  unfold report_line, present.
  destruct (fs (path_of dir fd)); [reflexivity|].
  unfold missing_line. apply prefix_app.
Qed.

Lemma reported_fail_count (files : list (string * string)) :
  count_opening "[FAIL] " (map (report_line fs dir) (reported fs dir files)) =
  if forallb (present fs dir) files then 0 else 1.
Proof.
  induction files as [|fd rest IH]; [reflexivity|].
  cbn [reported forallb]. destruct (present fs dir fd) eqn:E.
  - cbn [map andb]. unfold count_opening in *. cbn [filter].
    now rewrite report_line_fail, E.
  - cbn [map andb]. unfold count_opening. cbn [filter].
    now rewrite report_line_fail, E.
Qed.

Lemma body_fail_count (flag : bool) :
  count_opening "[FAIL] " (body_lines fs dir flag) =
  if flag then (if forallb (present fs dir) all_files then 0 else 1) else 0.
Proof.
  transitivity (count_opening "[FAIL] " (section_reports fs dir all_files flag)).
  - unfold body_lines, all_files. rewrite !section_reports_app. cbv zeta.
    repeat (rewrite count_opening_two by reflexivity;
            rewrite count_opening_app).
    rewrite !count_opening_app.
    change (count_opening "[FAIL] " [""; rule]) with 0. lia.
  - unfold section_reports. destruct flag; [apply reported_fail_count | reflexivity].
Qed.

Lemma manifest_fail_count :
  count_opening "[FAIL] " (manifest_lines repr_str fs dir) =
  if manifest_valid fs dir then 0 else 1.
Proof.
  unfold manifest_lines, manifest_check, json_verdict, manifest_valid,
    manifest_path.
  assert (forall p m, String.prefix "[FAIL] " (error_reading_line p m) = true)
    as Pe by (intros p m;
              exact (prefix_app "[FAIL] " ("Error reading " ++ p ++ ": " ++ m))).
  assert (forall p m, String.prefix "[FAIL] " (invalid_json_line p m) = true)
    as Pi by (intros p m;
              exact (prefix_app "[FAIL] " ("Invalid JSON in " ++ p ++ ": " ++ m))).
  unfold count_opening.
  destruct (fs (os_path_join dir manifest_name)) as [[sz pl]|].
  - cbn [node_payload]. destruct pl as [msg|msg|msg|v]; cbn [filter].
    + now rewrite Pe.
    + now rewrite Pe.
    + now rewrite Pi.
    + destruct (truthy v); [|reflexivity].
      destruct v; try reflexivity.
      unfold shown_fields. cbn [printed_fields].
      destruct (unprintable (dict_get d "name")); [reflexivity|].
      destruct (unprintable (dict_get d "version")); [reflexivity|].
      destruct (unprintable (dict_get d "manifest_version")); reflexivity.
  - cbn [filter]. now rewrite Pe.
Qed.


Lemma summary_fail_count (flag : bool) :
  count_opening "[FAIL] " (summary_lines dir flag) = 0.
Proof. now destruct flag. Qed.

(** What [main] returns when it returns. *)
Lemma result_when_not_aborting :
  manifest_aborts fs dir = false ->
  expected_result repr_str fs dir =
  Ok (exit_code (manifest_valid fs dir && forallb (present fs dir) all_files)).
Proof.
  intros Hab. unfold expected_result.
  destruct (manifest_check repr_str fs dir) as [line|v] eqn:Hm.
  - destruct (rejected_invalid repr_str fs dir line Hm) as [-> _]. reflexivity.
  - destruct (accepted_valid repr_str fs dir v Hm) as [-> E].
    rewrite <- E, Hab. reflexivity.
Qed.

Lemma result_when_aborting :
  manifest_aborts fs dir = true ->
  exists v, expected_result repr_str fs dir = Raise (abort_error repr_str v) /\
            manifest_check repr_str fs dir = Accepted v /\ aborts v = true.
Proof.
  intros Hab. unfold expected_result.
  destruct (manifest_check repr_str fs dir) as [line|v] eqn:Hm.
  - destruct (rejected_invalid repr_str fs dir line Hm) as [_ E]. congruence.
  - destruct (accepted_valid repr_str fs dir v Hm) as [_ E].
    exists v. rewrite <- E, Hab. now splits.
Qed.


Lemma output_shape :
  exists body summary,
    expected_output repr_str fs dir =
      (banner ++ manifest_lines repr_str fs dir ++ body ++ summary)%list /\
    ((manifest_aborts fs dir = true /\ body = [] /\ summary = []) \/
     (manifest_aborts fs dir = false /\
      body = body_lines fs dir (manifest_valid fs dir) /\
      summary = summary_lines dir
                  (manifest_valid fs dir && forallb (present fs dir) all_files))).
Proof.
  unfold expected_output.
  destruct (manifest_check repr_str fs dir) as [line|v] eqn:Hm.
  - destruct (rejected_invalid repr_str fs dir line Hm) as [Hv Ha].
    exists (body_lines fs dir false), (summary_lines dir false).
    split; [reflexivity|]. right. rewrite Hv. now splits.
  - destruct (accepted_valid repr_str fs dir v Hm) as [Hv E].
    destruct (aborts v) eqn:Ha.
    + exists [], []. split; [reflexivity|]. left. now splits.
    + exists (body_lines fs dir true),
             (summary_lines dir (flag_after fs dir all_files true)).
      split; [reflexivity|]. right. rewrite Hv. now splits.
Qed.



(** No line before the summary opens like a summary line. *)
Lemma no_summary_before (flag : bool) (line : string) :
  In line (banner ++ manifest_lines repr_str fs dir ++ body_lines fs dir flag) ->
  String.prefix "[SUCCESS]" line = false /\ String.prefix "[ERROR]" line = false.
Proof.
  rewrite !in_app_iff. intros [H|[H|H]].
  - unfold banner in H. cbn [In] in H.
    repeat (destruct H as [<-|H]; [split; reflexivity|]). destruct H.
  - revert H. unfold manifest_lines, manifest_check, json_verdict.
    destruct (fs (manifest_path dir)) as [[sz pl]|].
    + cbn [node_payload]. destruct pl as [msg|msg|msg|v]; cbn [In].
      * intros [<-|[]]. split; reflexivity.
      * intros [<-|[]]. split; reflexivity.
      * intros [<-|[]]. split; reflexivity.
      * intros [<-|H]; [split; reflexivity|].
        destruct (truthy v); [|destruct H].
        destruct v; try (destruct H; fail).
        apply (printed_fields_In repr_str) in H.
        unfold field_lines in H. cbn [In] in H.
        destruct H as [<-|[<-|[<-|[]]]]; split; reflexivity.
    + cbn [In]. intros [<-|[]]. split; reflexivity.
  - apply (body_lines_In repr_str fs dir) in H. destruct H as [H|H].
    + unfold body_frame in H. cbn [In] in H.
      repeat (destruct H as [<-|H]; [split; reflexivity|]). destruct H.
    + destruct flag; [|destruct H].
      apply report_In in H. destruct H as [g [_ ->]].
      unfold report_line. destruct (fs (path_of dir g)); split; reflexivity.
Qed.


End MoreFacts.


(** ** The claims *)

Section Claims.

Variable repr_str : string -> string.



(** C7.  A run leaves the file system as it found it: every system call it
    makes is a stat or an open for reading, on one of the expected paths
    under the script's directory. *)
Theorem filesystem_untouched (fs : FS) (dir : string) (argv : list string) :
  main_fs_after repr_str fs dir argv = fs /\
  w_fs (snd (run_process repr_str fs dir argv)) = fs /\
  fold_left sys_step (w_trace (snd (run_process repr_str fs dir argv))) fs = fs /\
  Forall (fun c => read_only c = true /\
                   exists f, In f expected_paths /\
                             syscall_path c = os_path_join dir f)
         (w_trace (snd (run_process repr_str fs dir argv))).
Proof.
  rewrite run_process_eq, main_fs_after_eq. cbn [snd w_fs w_trace].
  assert (Forall (fun c => read_only c = true /\
                   exists f, In f expected_paths /\
                             syscall_path c = os_path_join dir f)
            (expected_trace repr_str fs dir)) as H.
  { apply Forall_forall. intros c Hc.
    destruct (trace_calls repr_str fs dir c Hc) as [->|[g [Hg ->]]].
    - split; [reflexivity|]. exists manifest_name. split; [now left | reflexivity].
    - split; [reflexivity|]. exists (fst g). split; [|reflexivity].
      right. now apply in_map. }
  splits.
  - reflexivity.
  - reflexivity.
  - apply fold_read_only. revert H. apply Forall_impl. now intros c [Hc _].
  - exact H.
Qed.

(** C8.  Two runs on the same file system, from the same script directory,
    print the same lines and end the same way whatever [sys.argv] holds. *)
Theorem argv_irrelevant (fs : FS) (dir : string) (argv1 argv2 : list string) :
  fst (run_process repr_str fs dir argv1) = fst (run_process repr_str fs dir argv2) /\
  w_stdout (snd (run_process repr_str fs dir argv1)) =
  w_stdout (snd (run_process repr_str fs dir argv2)).
Proof.
  rewrite !run_process_eq. split; reflexivity.
Qed.







End Claims.

(** ** The claims on sample file systems *)

Import Sample.

Ltac by_eval := match goal with |- _ = _ => vm_compute; reflexivity end.

Ltac find_in := vm_compute; repeat first [left; reflexivity | right].









(** C5.  What the code does where the claim fails: with sidepanel.html
    absent, styles/variables.css is one of the fourteen files and is on
    disk, but the run prints no report line for it, nor any line that
    mentions it, because the loops stop checking after the first failure. *)
Lemma file_after_failure_unreported :
  In ("styles/variables.css", "Design tokens") all_files /\
  present no_sidepanel dir ("styles/variables.css", "Design tokens") = true /\
  ~ In (report_line no_sidepanel dir ("styles/variables.css", "Design tokens"))
       (main_output ascii_repr no_sidepanel dir []) /\
  mentions "styles/variables.css" (main_output ascii_repr no_sidepanel dir []) = false /\
  main_result ascii_repr no_sidepanel dir [] = Ok 1%Z.
Proof.
  splits; try by_eval.
  - find_in.
  - apply not_In_eqb. vm_compute. reflexivity.
Qed.






(** ** Further properties of the three functions *)

Section Extras.

Variable repr_str : string -> string.




(** Which summary text [print] is called with. *)
Lemma summary_calls (fs : FS) (dir : string) (argv : list string) :
  (In success_line (main_output repr_str fs dir argv) <->
   main_result repr_str fs dir argv = Ok 0%Z) /\
  (In error_line (main_output repr_str fs dir argv) <->
   main_result repr_str fs dir argv = Ok 1%Z).
Proof.
  rewrite main_result_eq, main_output_eq.
  destruct (output_shape repr_str fs dir) as [body [summary [Hout Hcases]]].
  rewrite Hout.
  assert (forall flag line,
             In line (banner ++ manifest_lines repr_str fs dir ++
                      body_lines fs dir flag) ->
             line <> success_line /\ line <> error_line) as Hbefore.
  { intros flag line Hin.
    destruct (no_summary_before repr_str fs dir flag line Hin) as [Hs He].
    split; intros ->; discriminate. }
  assert (forall line, In line (summary_lines dir true) -> line <> error_line)
    as Htrue.
  { intros line Hin ->.
    assert (forallb (fun l => negb (String.prefix "[ERROR]" l))
              (summary_lines dir true) = true) as H by reflexivity.
    rewrite forallb_forall in H. specialize (H _ Hin). discriminate H. }
  assert (forall line, In line (summary_lines dir false) -> line <> success_line)
    as Hfalse.
  { intros line Hin ->.
    assert (forallb (fun l => negb (String.prefix "[SUCCESS]" l))
              (summary_lines dir false) = true) as H by reflexivity.
    rewrite forallb_forall in H. specialize (H _ Hin). discriminate H. }
  destruct Hcases as [[Hab [-> ->]]|[Hab [-> ->]]].
  - destruct (result_when_aborting repr_str fs dir Hab) as [v [-> _]].
    split; split; intros H; try discriminate H; exfalso;
      rewrite !app_nil_r in H;
      assert (In_before : forall l,
                 In l (banner ++ manifest_lines repr_str fs dir) ->
                 In l (banner ++ manifest_lines repr_str fs dir ++
                       body_lines fs dir false))
        by (intros l; rewrite !in_app_iff; tauto);
      destruct (Hbefore false _ (In_before _ H)) as [N1 N2]; congruence.
  - rewrite (result_when_not_aborting repr_str fs dir Hab).
    set (b := (manifest_valid fs dir && forallb (present fs dir) all_files)%bool).
    assert (forall line,
               In line (banner ++ manifest_lines repr_str fs dir ++
                        body_lines fs dir (manifest_valid fs dir) ++
                        summary_lines dir b) ->
               In line (banner ++ manifest_lines repr_str fs dir ++
                        body_lines fs dir (manifest_valid fs dir)) \/
               In line (summary_lines dir b)) as Hsplit
      by (intros line; rewrite !in_app_iff; tauto).
    split; split; intros H.
    + destruct (Hsplit _ H) as [H1|H1].
      * destruct (Hbefore _ _ H1) as [N _]. congruence.
      * destruct b; [reflexivity|]. now destruct (Hfalse _ H1).
    + destruct b; [|discriminate H].
      rewrite !in_app_iff. right. right. right. now left.
    + destruct (Hsplit _ H) as [H1|H1].
      * destruct (Hbefore _ _ H1) as [_ N]. congruence.
      * destruct b; [|reflexivity]. now destruct (Htrue _ H1).
    + destruct b; [discriminate H|].
      rewrite !in_app_iff. right. right. right. now left.
Qed.

(** How many texts opening with "[FAIL] " [print] is called with. *)
Lemma failure_calls (fs : FS) (dir : string) (argv : list string) :
  (main_result repr_str fs dir argv = Ok 1%Z ->
   count_opening "[FAIL] " (main_output repr_str fs dir argv) = 1) /\
  (main_result repr_str fs dir argv <> Ok 1%Z ->
   count_opening "[FAIL] " (main_output repr_str fs dir argv) = 0).
Proof.
  rewrite main_result_eq, main_output_eq.
  destruct (output_shape repr_str fs dir) as [body [summary [Hout Hcases]]].
  rewrite Hout, !count_opening_app, manifest_fail_count.
  change (count_opening "[FAIL] " banner) with 0.
  destruct Hcases as [[Hab [-> ->]]|[Hab [-> ->]]].
  - destruct (result_when_aborting repr_str fs dir Hab) as [v [-> [Hm _]]].
    destruct (accepted_valid repr_str fs dir v Hm) as [-> _].
    split; intros H; [discriminate H | reflexivity].
  - rewrite (result_when_not_aborting repr_str fs dir Hab).
    rewrite body_fail_count, summary_fail_count.
    destruct (manifest_valid fs dir); cbn [andb];
      [destruct (forallb (present fs dir) all_files)|];
      unfold exit_code; split; intros H; try reflexivity;
      try discriminate H; now elim H.
Qed.

(** X4.  On stdout the success line appears whenever [main] returns 0 and
    the error line whenever it returns 1.  When no printed text holds a line
    feed (so that no manifest value, message or directory name can put a
    line of its own on stdout) the converse holds: the success line appears
    only if [main] returns 0 and the error line only if it returns 1, so no
    such run shows both. *)
Theorem summary_matches_result (fs : FS) (dir : string) (argv : list string) :
  (main_result repr_str fs dir argv = Ok 0%Z ->
   In success_line (stdout_lines (main_output repr_str fs dir argv))) /\
  (main_result repr_str fs dir argv = Ok 1%Z ->
   In error_line (stdout_lines (main_output repr_str fs dir argv))) /\
  (forallb single_line (main_output repr_str fs dir argv) = true ->
   (In success_line (stdout_lines (main_output repr_str fs dir argv)) ->
    main_result repr_str fs dir argv = Ok 0%Z) /\
   (In error_line (stdout_lines (main_output repr_str fs dir argv)) ->
    main_result repr_str fs dir argv = Ok 1%Z)).
Proof.
  destruct (summary_calls fs dir argv) as [Hs He].
  splits.
  - intros H. apply In_stdout_lines; [now apply Hs | reflexivity].
  - intros H. apply In_stdout_lines; [now apply He | reflexivity].
  - intros Hlines. rewrite (stdout_lines_single _ Hlines).
    split; [apply Hs | apply He].
Qed.

(** X5.  On a run where no printed text holds a line feed, stdout has at
    most one line that opens with "[FAIL] ": exactly one when [main] returns
    1, none otherwise.  The first failed check is the only one reported. *)
Theorem at_most_one_failure_line (fs : FS) (dir : string) (argv : list string) :
  forallb single_line (main_output repr_str fs dir argv) = true ->
  (main_result repr_str fs dir argv = Ok 1%Z ->
   count_opening "[FAIL] " (stdout_lines (main_output repr_str fs dir argv)) = 1) /\
  (main_result repr_str fs dir argv <> Ok 1%Z ->
   count_opening "[FAIL] " (stdout_lines (main_output repr_str fs dir argv)) = 0).
Proof.
  intros Hlines. rewrite (stdout_lines_single _ Hlines).
  exact (failure_calls fs dir argv).
Qed.

(** X6.  The only file a run opens is manifest.json, once, as its first
    system call; every other call is a stat of one of the fourteen checked
    files, and there are at most twenty-eight of them.  The contents of the
    checked files are never read. *)
Theorem only_the_manifest_is_opened (fs : FS) (dir : string) (argv : list string) :
  exists stats : list syscall,
    main_trace repr_str fs dir argv = SysOpenRead (manifest_path dir) :: stats /\
    Forall (fun c => exists g, In g all_files /\ c = SysStat (path_of dir g)) stats /\
    List.length stats <= 28.
Proof.
  rewrite main_trace_eq. unfold expected_trace.
  assert (forall files, List.length (flat_map (check_calls fs dir)
                                       (reported fs dir files))
                        <= 2 * List.length files) as Hlen.
  { induction files as [|fd rest IH]; [simpl; lia|].
    cbn [reported]. destruct (present fs dir fd) eqn:E.
    - cbn [flat_map]. rewrite length_app. unfold check_calls at 1. rewrite E.
      cbn [List.length] in *. lia.
    - cbn [flat_map]. rewrite length_app. unfold check_calls at 1. rewrite E.
      cbn [List.length]. lia. }
  destruct (manifest_check repr_str fs dir) as [line|v].
  - exists []. splits; [reflexivity | constructor | simpl; lia].
  - destruct (aborts v).
    + exists []. splits; [reflexivity | constructor | simpl; lia].
    + exists (body_calls fs dir true). splits; [reflexivity | |].
      * apply Forall_forall. intros c Hc.
        rewrite body_calls_flat in Hc.
        apply (call_In repr_str fs dir) in Hc. destruct Hc as [g [Hg ->]].
        exists g. split; [|reflexivity].
        now apply (reported_incl repr_str fs dir) in Hg.
      * rewrite body_calls_flat. unfold section_calls.
        exact (Hlen all_files).
Qed.

(** X7.  What [main] returns depends on the file system only through what
    manifest.json parses to and through which of the fourteen files exist:
    sizes, and the contents of the checked files, play no part. *)
Theorem result_ignores_sizes_and_contents
    (fs1 fs2 : FS) (dir : string) (argv : list string) :
  option_map node_payload (fs1 (manifest_path dir)) =
  option_map node_payload (fs2 (manifest_path dir)) ->
  (forall g, In g all_files -> present fs1 dir g = present fs2 dir g) ->
  main_result repr_str fs1 dir argv = main_result repr_str fs2 dir argv /\
  fst (run_process repr_str fs1 dir argv) = fst (run_process repr_str fs2 dir argv).
Proof.
  intros Hm Hfiles.
  assert (manifest_check repr_str fs1 dir = manifest_check repr_str fs2 dir) as Hc.
  { unfold manifest_check, json_verdict.
    destruct (fs1 (manifest_path dir)) as [[s1 p1]|],
             (fs2 (manifest_path dir)) as [[s2 p2]|];
      cbn [option_map node_payload] in *; try discriminate Hm;
      [|reflexivity].
    injection Hm as ->. reflexivity. }
  assert (expected_result repr_str fs1 dir = expected_result repr_str fs2 dir) as Hr.
  { unfold expected_result, flag_after. rewrite Hc.
    now rewrite (forallb_agree (present fs1 dir) (present fs2 dir) all_files Hfiles). }
  rewrite !run_process_eq, !main_result_eq, Hr. now split.
Qed.




End Extras.


(** ** The further properties on sample file systems *)


Lemma summary_matches_result_witness :
  forallb single_line (main_output ascii_repr complete dir []) = true /\
  main_result ascii_repr complete dir [] = Ok 0%Z /\
  In success_line (stdout_lines (main_output ascii_repr complete dir [])) /\
  forallb single_line (main_output ascii_repr no_components dir []) = true /\
  main_result ascii_repr no_components dir [] = Ok 1%Z /\
  In error_line (stdout_lines (main_output ascii_repr no_components dir [])) /\
  ~ In success_line (stdout_lines (main_output ascii_repr no_components dir [])).
Proof.
  assert (forallb single_line (main_output ascii_repr complete dir []) = true)
    as L0 by by_eval.
  assert (forallb single_line (main_output ascii_repr no_components dir []) = true)
    as L1 by by_eval.
  assert (main_result ascii_repr complete dir [] = Ok 0%Z) as R0 by by_eval.
  assert (main_result ascii_repr no_components dir [] = Ok 1%Z) as R1 by by_eval.
  destruct (summary_matches_result ascii_repr complete dir []) as [S0 _].
  destruct (summary_matches_result ascii_repr no_components dir [])
    as [_ [E1 C1]].
  destruct (C1 L1) as [Honly _].
  split; [exact L0|]. split; [exact R0|]. split; [exact (S0 R0)|].
  split; [exact L1|]. split; [exact R1|]. split; [exact (E1 R1)|].
  intros Hin. pose proof (Honly Hin) as H. rewrite R1 in H. discriminate H.
Defined.

Lemma at_most_one_failure_line_witness :
  forallb single_line (main_output ascii_repr no_components dir []) = true /\
  main_result ascii_repr no_components dir [] = Ok 1%Z /\
  count_opening "[FAIL] "
    (stdout_lines (main_output ascii_repr no_components dir [])) = 1 /\
  forallb single_line (main_output ascii_repr complete dir []) = true /\
  main_result ascii_repr complete dir [] <> Ok 1%Z /\
  count_opening "[FAIL] "
    (stdout_lines (main_output ascii_repr complete dir [])) = 0.
Proof.
  assert (forallb single_line (main_output ascii_repr complete dir []) = true)
    as L0 by by_eval.
  assert (forallb single_line (main_output ascii_repr no_components dir []) = true)
    as L1 by by_eval.
  assert (main_result ascii_repr no_components dir [] = Ok 1%Z) as H1 by by_eval.
  assert (main_result ascii_repr complete dir [] <> Ok 1%Z) as H0
    by (vm_compute; discriminate).
  destruct (at_most_one_failure_line ascii_repr no_components dir [] L1)
    as [Hone _].
  destruct (at_most_one_failure_line ascii_repr complete dir [] L0)
    as [_ Hnone].
  split; [exact L1|]. split; [exact H1|]. split; [exact (Hone H1)|].
  split; [exact L0|]. split; [exact H0 | exact (Hnone H0)].
Defined.


Lemma result_ignores_sizes_and_contents_witness :
  option_map node_payload (complete (manifest_path dir)) =
  option_map node_payload (rewritten (manifest_path dir)) /\
  (forall g, In g all_files -> present complete dir g = present rewritten dir g) /\
  complete (os_path_join dir "sidepanel.html") <>
  rewritten (os_path_join dir "sidepanel.html") /\
  main_result ascii_repr complete dir [] = main_result ascii_repr rewritten dir [] /\
  fst (run_process ascii_repr complete dir []) =
  fst (run_process ascii_repr rewritten dir []).
Proof.
  assert (option_map node_payload (complete (manifest_path dir)) =
          option_map node_payload (rewritten (manifest_path dir))) as Hm by by_eval.
  assert (forall g, In g all_files ->
                    present complete dir g = present rewritten dir g) as Hf.
  { intros g Hg. unfold all_files in Hg. cbn [app html_files css_files js_files icon_files In] in Hg.
    repeat (destruct Hg as [<-|Hg]; [by_eval|]). destruct Hg. }
  split; [exact Hm|]. split; [exact Hf|].
  split; [vm_compute; discriminate|].
  exact (result_ignores_sizes_and_contents ascii_repr complete rewritten dir []
           Hm Hf).
Defined.

